(** * Animal Planet image API: the record handlers of routes/images.js

    A shallow embedding of the four Express routes (create, list,
    get-by-id, update), of the Multer middleware and disk storage in
    front of the create route (which file parts it skips, stores,
    refuses and removes), of Express's default error handler behind it,
    and of the part of the MongoDB driver the routes call (insertOne,
    find, findOne, updateOne with $set, the ObjectId constructor).
    Handlers run in a small state-and-exception monad over the two
    durable stores of the service: the "images" collection and the
    uploads directory. *)

From Stdlib Require Import ZArith NArith Ascii String List.
From stdpp Require Import gmap strings pretty list fin_maps.

Local Open Scope string_scope.
Local Open Scope Z_scope.
Set Warnings "-register-all".

(** ** JavaScript and BSON values *)

(** The driver's ObjectId: twelve bytes, kept as the number they spell. *)
Definition ObjectId := N.

(** Values held by request bodies and by stored documents.  [VNum] covers
    the integer-valued numbers; none of the routes computes with numbers.
    [VDate] is a Date (epoch milliseconds), [VId] an ObjectId. *)
Inductive value :=
| VUndefined
| VNull
| VBool (b : bool)
| VNum (n : Z)
| VStr (s : string)
| VDate (ms : Z)
| VId (o : ObjectId)
| VArr (items : list value)
| VObj (props : list (string * value)).

Fixpoint value_eq_dec (x y : value) {struct x} : {x = y} + {x <> y}.
Proof.
  decide equality.
  - apply bool_dec.
  - apply Z.eq_dec.
  - apply string_dec.
  - apply Z.eq_dec.
  - apply N.eq_dec.
  - apply (List.list_eq_dec value_eq_dec).
  - refine (List.list_eq_dec _ props props0).
    intros [k1 v1] [k2 v2].
    destruct (string_dec k1 k2) as [Hk | Hk].
    + destruct (value_eq_dec v1 v2) as [Hv | Hv].
      * left. congruence.
      * right. congruence.
    + right. congruence.
Defined.

#[global] Instance value_eq_decision : EqDecision value := value_eq_dec.

(** A JS object used as a record: request bodies, documents, $set. *)
Abbreviation object := (gmap string value).
Abbreviation document := (gmap string value).

(** JS truthiness, as the [||] operator tests it. *)
Definition truthy (v : value) : bool :=
  match v with
  | VUndefined | VNull => false
  | VBool b => b
  | VNum n => negb (n =? 0)
  | VStr s => negb (String.eqb s "")
  | VDate _ | VId _ | VArr _ | VObj _ => true
  end.

(** [a || b] *)
Definition js_or (a b : value) : value := if truthy a then a else b.

(** What the driver's serializer writes for a value: [undefined] is
    written as null (the driver's default, ignoreUndefined off). *)
Fixpoint bson (v : value) : value :=
  match v with
  | VUndefined => VNull
  | VArr items => VArr (List.map bson items)
  | VObj props => VObj (List.map (fun kv => (fst kv, bson (snd kv))) props)
  | _ => v
  end.

(** ** ObjectId construction from a string *)

Definition hex_digit (c : ascii) : option N :=
  let n := N_of_ascii c in
  if ((48 <=? n) && (n <=? 57))%N then Some (n - 48)%N
  else if ((65 <=? n) && (n <=? 70))%N then Some (n - 55)%N
  else if ((97 <=? n) && (n <=? 102))%N then Some (n - 87)%N
  else None.

Fixpoint hex_value (s : string) (acc : N) : option N :=
  match s with
  | EmptyString => Some acc
  | String c rest =>
      match hex_digit c with
      | Some d => hex_value rest (16 * acc + d)%N
      | None => None
      end
  end.

Definition ObjectId_error : string :=
  "input must be a 24 character hex string, 12 byte Uint8Array, or an integer".

(** [new ObjectId(s)] for a string [s]: 24 hexadecimal characters, or the
    constructor throws. *)
Definition ObjectId_new (s : string) : string + ObjectId :=
  if Nat.eqb (String.length s) 24 then
    match hex_value s 0%N with
    | Some n => inr n
    | None => inl ObjectId_error
    end
  else inl ObjectId_error.

(** ** The service's durable state and the handler monad *)

(** The "images" collection, the uploads directory (file name to bytes),
    and the condition of the store: [fault] holds the message every
    driver call raises while the store is unreachable.  The collection
    is a list; its order stands for the order in which the store scans
    it, which the routes neither ask for nor control. *)
Record world := World {
  images : list document;
  uploads : gmap string (list Byte.byte);
  fault : option string
}.

Definition with_images (l : list document) (w : world) : world :=
  {| images := l; uploads := uploads w; fault := fault w |}.

Definition with_uploads (u : gmap string (list Byte.byte)) (w : world) : world :=
  {| images := images w; uploads := u; fault := fault w |}.

(** A computation either returns or throws an Error with a message; the
    state reached so far is kept in both cases. *)
Inductive outcome (A : Type) :=
| Returned (a : A)
| Thrown (message : string).
Arguments Returned {A} a.
Arguments Thrown {A} message.

Definition io (A : Type) : Type := world -> outcome A * world.

#[global] Instance io_ret : MRet io := fun A a w => (Returned a, w).

#[global] Instance io_bind : MBind io := fun A B f m w =>
  match m w with
  | (Returned a, w') => f a w'
  | (Thrown msg, w') => (Thrown msg, w')
  end.

Definition throw {A : Type} (msg : string) : io A := fun w => (Thrown msg, w).

(** [try { body } catch (err) { handler(err.message) }] *)
Definition try_catch {A : Type} (body : io A) (handler : string -> io A) : io A :=
  fun w =>
    match body w with
    | (Returned a, w') => (Returned a, w')
    | (Thrown msg, w') => handler msg w'
    end.

(** Reading property [k] of [undefined] *)
Definition TypeError_undefined (k : string) : string :=
  "Cannot read properties of undefined (reading '" +:+ k +:+ "')".

(** ** The MongoDB driver, on the "images" collection *)

Record InsertOneResult := {
  ins_acknowledged : bool;
  insertedId : value
}.

Record UpdateResult := {
  upd_acknowledged : bool;
  matchedCount : nat;
  modifiedCount : nat;
  upsertedCount : nat;
  upsertedId : option ObjectId
}.

Definition duplicate_key_error : string :=
  "E11000 duplicate key error collection: imageDB.images index: _id_".

(** The filter [{ _id: o }] *)
Definition has_id (o : ObjectId) (d : document) : Prop :=
  d !! "_id" = Some (VId o).

#[global] Instance has_id_dec o d : Decision (has_id o d).
Proof. unfold has_id. apply _. Defined.

(** The filter [{ _id: v }] for the identifier of a document being
    inserted (the unique index on _id). *)
Definition same_id (v : value) (d : document) : bool :=
  bool_decide (d !! "_id" = Some v).

(** Every driver call fails with the store's fault while there is one. *)
Definition driver {A : Type} (op : world -> outcome A * world) : io A :=
  fun w =>
    match fault w with
    | Some msg => (Thrown msg, w)
    | None => op w
    end.

(** [collection.insertOne(doc)]: the driver gives the document the
    identifier [pk] it generated unless the document has an _id, and the
    store refuses an identifier already present. *)
Definition insertOne (pk : ObjectId) (doc : object) : io InsertOneResult :=
  driver (fun w =>
    let id := match doc !! "_id" with
              | Some v => bson v
              | None => VId pk
              end in
    let stored := <["_id" := id]> (bson <$> doc) in
    if existsb (same_id id) (images w) then (Thrown duplicate_key_error, w)
    else (Returned {| ins_acknowledged := true; insertedId := id |},
          with_images (images w ++ [stored]) w)).

(** [collection.find().toArray()] *)
Definition find_toArray : io (list document) :=
  driver (fun w => (Returned (images w), w)).

(** [collection.findOne({ _id: o })]: the first match, or null. *)
Definition findOne (o : ObjectId) : io (option document) :=
  driver (fun w => (Returned (snd <$> list_find (has_id o) (images w)), w)).

(** The effect of [$set: fields] on one document: the listed fields are
    overwritten, the others kept. *)
Definition apply_set (fields : object) (d : document) : document :=
  (bson <$> fields) ∪ d.

(** [collection.updateOne({ _id: o }, { $set: fields })], no upsert. *)
Definition updateOne (o : ObjectId) (fields : object) : io UpdateResult :=
  driver (fun w =>
    match list_find (has_id o) (images w) with
    | Some (i, d) =>
        let d' := apply_set fields d in
        (Returned {| upd_acknowledged := true;
                     matchedCount := 1;
                     modifiedCount := if decide (d' = d) then 0 else 1;
                     upsertedCount := 0;
                     upsertedId := None |},
         with_images (<[i := d']> (images w)) w)
    | None =>
        (Returned {| upd_acknowledged := true;
                     matchedCount := 0;
                     modifiedCount := 0;
                     upsertedCount := 0;
                     upsertedId := None |}, w)
    end).

(** [new ObjectId(s)] inside a handler *)
Definition new_ObjectId (s : string) : io ObjectId :=
  match ObjectId_new s with
  | inr o => mret o
  | inl msg => throw msg
  end.

(** ** Requests, responses and the environment of one request *)

(** A file part of a multipart body as the client sent it: the name of
    the form field, the file name the client gave, and the bytes. *)
Record multipart_file := {
  field_name : string;
  client_filename : string;
  file_bytes : list Byte.byte
}.

(** The [file] Multer hands to the storage for a file part: the original
    name (what busboy leaves of the client's file name) and the bytes. *)
Record file_part := {
  part_originalname : string;
  part_content : list Byte.byte
}.

(** [req.file], as Multer's disk storage fills it in. *)
Record multer_file := {
  fieldname : string;
  originalname : string;
  destination : string;
  filename : string;
  path : string
}.

(** A request once its body has been parsed: [req.params.id], [req.body]
    ([None] when no body parser produced one; the text fields of a
    multipart body) and the file parts of a multipart body, in the order
    they arrive (none for any other body).  A body that express.json()
    or busboy cannot parse, or that exceeds one of their size limits, is
    answered by Express before any code below runs and is not
    represented. *)
Record request := {
  params_id : string;
  body : option object;
  files : list multipart_file
}.

(** What one request reads from outside: [Date.now()] in the storage's
    filename callback, [new Date()] in the create handler, and the
    identifier the driver generates for an inserted document. *)
Record env := {
  arrival_ms : Z;
  created_ms : Z;
  pk : ObjectId
}.

Inductive payload :=
| JInsert (r : InsertOneResult)
| JUpdate (r : UpdateResult)
| JDocuments (l : list document)
| JDocument (d : document)
| JMessage (message : string)
| ErrorPage (error : string).

Record response := {
  status : nat;
  json : payload
}.

(** [res.status(code).json(j)]; [res.json(j)] is [respond 200 j]. *)
Definition respond (code : nat) (j : payload) : io response :=
  mret {| status := code; json := j |}.

(** [o.k] for an object [o]: undefined when [o] has no such property. *)
Definition get_prop (o : object) (k : string) : value :=
  default VUndefined (o !! k).

(** [req.body.k] *)
Definition body_prop (req : request) (k : string) : io value :=
  match body req with
  | Some o => mret (get_prop o k)
  | None => throw (TypeError_undefined k)
  end.

(** [req.file.filename] *)
Definition file_filename (file : option multer_file) : io string :=
  match file with
  | Some f => mret (filename f)
  | None => throw (TypeError_undefined "filename")
  end.

(** ** Multer configuration *)

Definition storage_destination : string := "uploads/".

(** [Date.now() + "-" + file.originalname] *)
Definition storage_filename (now : Z) (file : file_part) : string :=
  pretty now +:+ "-" +:+ part_originalname file.

(** The separators of busboy's [basename]: [/] and [\]. *)
Definition is_separator (c : ascii) : bool :=
  (N_of_ascii c =? 47)%N || (N_of_ascii c =? 92)%N.

(** The text after the last separator of [s], if [s] has a separator. *)
Fixpoint after_last_separator (s : string) : option string :=
  match s with
  | EmptyString => None
  | String c rest =>
      match after_last_separator rest with
      | Some tail => Some tail
      | None => if is_separator c then Some rest else None
      end
  end.

(** busboy's [basename], applied to the client's file name before Multer
    sees it (preservePath is off). *)
Definition basename (p : string) : string :=
  let name := default p (after_last_separator p) in
  if String.eqb name ".." || String.eqb name "." then "" else name.

(** The [file] Multer builds for a part. *)
Definition incoming_file (p : multipart_file) : file_part :=
  {| part_originalname := basename (client_filename p);
     part_content := file_bytes p |}.

(** The file parts Multer looks at: a part without a file name is
    skipped ("don't attach to the files object, if there is no file"). *)
Definition named_files (ps : list multipart_file) : list multipart_file :=
  List.filter
    (fun p => negb (String.eqb (basename (client_filename p)) "")) ps.

(** The message of MulterError LIMIT_UNEXPECTED_FILE *)
Definition unexpected_field : string := "Unexpected field".

(** The disk storage's [_handleFile]: writes the file into the uploads
    directory under the storage's file name and returns what becomes
    [req.file]. *)
Definition handle_file (e : env) (part : file_part) : io multer_file :=
  let name := storage_filename (arrival_ms e) part in
  fun w =>
    (Returned {| fieldname := "image";
                 originalname := part_originalname part;
                 destination := storage_destination;
                 filename := name;
                 path := storage_destination +:+ name |},
     with_uploads (<[name := part_content part]> (uploads w)) w).

(** The disk storage's [_removeFile]: unlinks a file it wrote. *)
Definition remove_file (f : multer_file) : io unit :=
  fun w => (Returned tt, with_uploads (delete (filename f) (uploads w)) w).

(** [upload.single("image")]: Multer accepts one file under the field
    "image".  The first file part it looks at is stored if it is under
    that field; any file part under another field, and any file part
    after the first, is an unexpected field: Multer then removes the
    file it stored for this request and passes the error on. *)
Definition upload_single (e : env) (req : request) : io (option multer_file) :=
  match named_files (files req) with
  | [] => mret None
  | p :: rest =>
      if String.eqb (field_name p) "image" then
        file ← handle_file e (incoming_file p);
        match rest with
        | [] => mret (Some file)
        | _ :: _ => _ ← remove_file file; throw unexpected_field
        end
      else throw unexpected_field
  end.

(** Express's default error handler, for an error a middleware passes
    on: an error that carries no status is answered 500 with Express's
    own error page. *)
Definition express_default (route : io response) : io response :=
  try_catch route (fun msg => respond 500 (ErrorPage msg)).

(** ** The routes *)

(** The document the create handler builds, from the five property reads
    and the stored file name. *)
Definition imageData (e : env) (name type description color lifeSpan : value)
    (stored_name : string) : object :=
  <["name" := name]>
  (<["type" := type]>
  (<["description" := description]>
  (<["color" := js_or color (VStr "")]>
  (<["lifeSpan" := js_or lifeSpan (VStr "")]>
  (<["imagePath" := VStr ("/uploads/" +:+ stored_name)]>
  (<["createdAt" := VDate (created_ms e)]> ∅)))))).

(** The handler of [router.post("/")], given [req.file]. *)
Definition post_handler (e : env) (req : request) (file : option multer_file)
    : io response :=
  try_catch
    (name ← body_prop req "name";
     type ← body_prop req "type";
     description ← body_prop req "description";
     color ← body_prop req "color";
     lifeSpan ← body_prop req "lifeSpan";
     stored_name ← file_filename file;
     result ← insertOne (pk e)
                (imageData e name type description color lifeSpan stored_name);
     respond 201 (JInsert result))
    (fun msg => respond 500 (JMessage msg)).

(** [router.post("/", upload.single("image"), handler)], as Express
    serves it. *)
Definition router_post (e : env) (req : request) : io response :=
  express_default
    (file ← upload_single e req;
     post_handler e req file).

(** The file parts the create route is made for: among the parts with a
    file name there is exactly one, [p], and it is under the field
    "image". *)
Definition carries_image (req : request) (p : multipart_file) : Prop :=
  named_files (files req) = [p] /\ field_name p = "image".

(** [router.get("/")] *)
Definition router_get (req : request) : io response :=
  try_catch
    (images ← find_toArray;
     respond 200 (JDocuments images))
    (fun msg => respond 500 (JMessage msg)).

(** [router.get("/:id")] *)
Definition router_get_id (req : request) : io response :=
  try_catch
    (o ← new_ObjectId (params_id req);
     image ← findOne o;
     match image with
     | None => respond 404 (JMessage "Image not found")
     | Some d => respond 200 (JDocument d)
     end)
    (fun msg => respond 500 (JMessage msg)).

(** The [$set] document of the update handler. *)
Definition update_set (name type description color lifespan : value) : object :=
  <["name" := name]>
  (<["type" := type]>
  (<["description" := description]>
  (<["color" := color]>
  (<["lifespan" := lifespan]> ∅)))).

(** [router.put("/:id")] *)
Definition router_put (req : request) : io response :=
  try_catch
    (o ← new_ObjectId (params_id req);
     name ← body_prop req "name";
     type ← body_prop req "type";
     description ← body_prop req "description";
     color ← body_prop req "color";
     lifespan ← body_prop req "lifespan";
     result ← updateOne o (update_set name type description color lifespan);
     respond 200 (JUpdate result))
    (fun msg => respond 500 (JMessage msg)).

(** The five keys the update handler writes. *)
Definition text_keys : list string :=
  ["name"; "type"; "description"; "color"; "lifespan"].

(** The document the store holds after a create request with body [b]
    whose file was stored under [stored_name]. *)
Definition created_document (e : env) (b : object) (stored_name : string)
    : document :=
  <["_id" := VId (pk e)]>
    (bson <$> imageData e (get_prop b "name") (get_prop b "type")
                (get_prop b "description") (get_prop b "color")
                (get_prop b "lifeSpan") stored_name).

(** The [$set] document the update handler sends for body [b]. *)
Definition put_fields (b : object) : object :=
  update_set (get_prop b "name") (get_prop b "type")
    (get_prop b "description") (get_prop b "color") (get_prop b "lifespan").

(** ** Sample data *)

Definition cat_upload : multipart_file :=
  {| field_name := "image";
     client_filename := "cat.jpg";
     file_bytes := [Byte.xff; Byte.xd8] |}.

Definition cat_jpg : file_part :=
  {| part_originalname := "cat.jpg"; part_content := [Byte.xff; Byte.xd8] |}.

Definition cat_body : object :=
  <["name" := VStr "Cat"]>
  (<["type" := VStr "Mammal"]>
  (<["description" := VStr "A small cat"]> ∅)).

Definition cat_request : request :=
  {| params_id := ""; body := Some cat_body; files := [cat_upload] |}.

Definition cat_env : env :=
  {| arrival_ms := 1700000000000; created_ms := 1700000000007; pk := 1%N |}.

Definition empty_world : world :=
  {| images := []; uploads := ∅; fault := None |}.




Definition other_cat_upload : multipart_file :=
  {| field_name := "image";
     client_filename := "cat.jpg";
     file_bytes := [Byte.x89; Byte.x50] |}.

Definition other_cat_jpg : file_part :=
  {| part_originalname := "cat.jpg"; part_content := [Byte.x89; Byte.x50] |}.

Definition other_env : env :=
  {| arrival_ms := 1700000000000; created_ms := 1700000000009; pk := 2%N |}.

Definition other_request : request :=
  {| params_id := ""; body := Some cat_body; files := [other_cat_upload] |}.

Definition cat_world : world :=
  snd (router_post cat_env cat_request empty_world).

Definition cat_document : document :=
  created_document cat_env cat_body
    (storage_filename (arrival_ms cat_env) cat_jpg).

Definition get_cat_request : request :=
  {| params_id := "000000000000000000000001"; body := None; files := [] |}.

Definition get_missing_request : request :=
  {| params_id := "0000000000000000000000fF"; body := None; files := [] |}.

Definition get_malformed_request : request :=
  {| params_id := "not-an-id"; body := None; files := [] |}.

Definition rename_body : object := <["name" := VStr "Updated Cat"]> ∅.

Definition rename_cat_request : request :=
  {| params_id := "000000000000000000000001";
     body := Some rename_body;
     files := [] |}.

Definition rename_missing_request : request :=
  {| params_id := "0000000000000000000000fF";
     body := Some rename_body;
     files := [] |}.

(** ** The router as a whole *)

(** The four routes registered on the router. *)
Inductive operation := PostImage | GetImages | GetImage | PutImage.

Definition run (op : operation) (e : env) (req : request) : io response :=
  match op with
  | PostImage => router_post e req
  | GetImages => router_get req
  | GetImage => router_get_id req
  | PutImage => router_put req
  end.

(** The status codes written in the handler of each route. *)
Definition statuses (op : operation) : list nat :=
  match op with
  | PostImage => [201; 500]
  | GetImages => [200; 500]
  | GetImage => [200; 404; 500]
  | PutImage => [200; 500]
  end%nat.

(** The _id of every stored document, in scan order. *)
Definition ids (w : world) : list (option value) :=
  (fun d : document => d !! "_id") <$> images w.

(** The state in which the create handler starts: after the upload
    middleware has run. *)
Definition after_upload (e : env) (req : request) (w : world) : world :=
  snd (upload_single e req w).


Definition down_world : world :=
  {| images := []; uploads := ∅; fault := Some "connect ECONNREFUSED" |}.

Definition rename_malformed_request : request :=
  {| params_id := "not-an-id"; body := Some rename_body; files := [] |}.

Definition rename_bodyless_request : request :=
  {| params_id := "000000000000000000000001"; body := None; files := [] |}.

Definition empty_color_body : object := <["color" := VStr ""]> cat_body.

Definition empty_color_request : request :=
  {| params_id := ""; body := Some empty_color_body; files := [cat_upload] |}.



Definition path_upload : multipart_file :=
  {| field_name := "image";
     client_filename := "C:\photos\cat.jpg";
     file_bytes := [Byte.xff; Byte.xd8] |}.



Definition path_request : request :=
  {| params_id := ""; body := Some cat_body; files := [path_upload] |}.




(** Multer stores a file for the request and then removes it: the first
    file part it looks at is under "image" and another follows. *)
Definition multer_unlinks (req : request) : Prop :=
  exists p q rest,
    named_files (files req) = p :: q :: rest /\ field_name p = "image".

(** The requests of a route that get as far as its driver call: the
    reads of the request made before the call do not throw. *)
Definition reaches_store (op : operation) (req : request) : Prop :=
  match op with
  | PostImage =>
      (exists p, carries_image req p) /\ is_Some (body req)
  | GetImages => True
  | GetImage => exists o, ObjectId_new (params_id req) = inr o
  | PutImage =>
      (exists o, ObjectId_new (params_id req) = inr o) /\ is_Some (body req)
  end.


(** Every document's imagePath is "/uploads/" followed by the name of a
    file that is in the uploads directory. *)
Definition paths_resolve (w : world) : Prop :=
  forall d : document,
    d ∈ images w ->
    exists n : string,
      d !! "imagePath" = Some (VStr ("/uploads/" +:+ n))
      /\ is_Some (uploads w !! n).

(** Unfolding of the monad's operations. *)
Ltac run_io :=
  unfold respond, throw, mbind, io_bind, mret, io_ret, try_catch; simpl.

(** ** Auxiliary facts *)

Lemma bson_string (s : string) : bson (VStr s) = VStr s.
Proof. reflexivity. Qed.

Lemma imageData_no_id e n t d c l f : imageData e n t d c l f !! "_id" = None.
Proof. reflexivity. Qed.

Lemma fresh_id_not_present (o : ObjectId) (l : list document) :
  Forall (fun d => ¬ has_id o d) l -> existsb (same_id (VId o)) l = false.
Proof.
  induction 1 as [| d l Hd _ IH]; simpl; [reflexivity |].
  rewrite IH, orb_false_r. unfold same_id.
  apply bool_decide_eq_false. exact Hd.
Qed.

Lemma list_find_no_match (o : ObjectId) (l : list document) :
  Forall (fun d => ¬ has_id o d) l -> list_find (has_id o) l = None.
Proof. intros H. apply list_find_None. exact H. Qed.

(** ** The upload middleware *)

Lemma upload_single_ok (e : env) (req : request) (p : multipart_file)
    (w : world) :
  carries_image req p ->
  let name := storage_filename (arrival_ms e) (incoming_file p) in
  exists f : multer_file,
    filename f = name
    /\ upload_single e req w =
         (Returned (Some f),
          with_uploads (<[name := file_bytes p]> (uploads w)) w).
Proof.
  intros [Hnamed Hfield] name.
  unfold upload_single. rewrite Hnamed, Hfield. simpl.
  eexists. split; [| reflexivity]. reflexivity.
Qed.

(** The four ways the upload middleware can end. *)
Lemma upload_single_cases (e : env) (req : request) (w : world) :
  (named_files (files req) = []
   /\ upload_single e req w = (Returned None, w))
  \/ (exists p, carries_image req p)
  \/ ((exists p rest, named_files (files req) = p :: rest
                      /\ field_name p <> "image")
      /\ upload_single e req w = (Thrown unexpected_field, w))
  \/ (exists p q rest,
        named_files (files req) = p :: q :: rest
        /\ field_name p = "image"
        /\ upload_single e req w =
             (Thrown unexpected_field,
              with_uploads
                (delete (storage_filename (arrival_ms e) (incoming_file p))
                   (<[storage_filename (arrival_ms e) (incoming_file p)
                      := file_bytes p]> (uploads w))) w)).
Proof.
  unfold upload_single, carries_image.
  destruct (named_files (files req)) as [| p rest] eqn:Hnamed.
  { left. auto. }
  right.
  destruct (String.eqb (field_name p) "image") eqn:Hfield.
  - apply String.eqb_eq in Hfield.
    destruct rest as [| q rest].
    + left. exists p. auto.
    + right. right. exists p, q, rest. auto.
  - apply String.eqb_neq in Hfield.
    right. left. split; [| reflexivity]. exists p, rest. auto.
Qed.

Lemma upload_single_images (e : env) (req : request) (w : world) :
  images (snd (upload_single e req w)) = images w
  /\ fault (snd (upload_single e req w)) = fault w.
Proof.
  unfold upload_single.
  destruct (named_files (files req)) as [| p rest]; [auto |].
  destruct (String.eqb (field_name p) "image"); [| auto].
  destruct rest; auto.
Qed.

(** ** The create route *)

Lemma router_post_ok (e : env) (req : request) (p : multipart_file)
    (b : object) (w : world) :
  carries_image req p ->
  body req = Some b ->
  fault w = None ->
  Forall (fun d => ¬ has_id (pk e) d) (images w) ->
  let stored_name := storage_filename (arrival_ms e) (incoming_file p) in
  router_post e req w =
    (Returned {| status := 201;
                 json := JInsert {| ins_acknowledged := true;
                                    insertedId := VId (pk e) |} |},
     with_images (images w ++ [created_document e b stored_name])
       (with_uploads (<[stored_name := file_bytes p]> (uploads w)) w)).
Proof.
  intros [Hnamed Hfield] Hbody Hfault Hfresh stored_name.
  unfold router_post, express_default, upload_single, handle_file,
    post_handler, body_prop, file_filename.
  rewrite Hnamed, Hfield, Hbody. run_io.
  unfold insertOne, driver. simpl. rewrite Hfault.
  rewrite imageData_no_id.
  rewrite (fresh_id_not_present _ _ Hfresh).
  reflexivity.
Qed.

(** Without a file part that Multer keeps, the handler fails on
    [req.file.filename] (or earlier, on [req.body]). *)
Lemma router_post_no_file (e : env) (req : request) (w : world) :
  named_files (files req) = [] ->
  exists msg : string,
    router_post e req w =
      (Returned {| status := 500; json := JMessage msg |}, w)
    /\ (forall b, body req = Some b -> msg = TypeError_undefined "filename").
Proof.
  intros Hnamed.
  unfold router_post, express_default, upload_single, post_handler,
    body_prop, file_filename.
  rewrite Hnamed.
  destruct (body req) as [b |]; run_io.
  - exists (TypeError_undefined "filename"). split; [reflexivity | auto].
  - exists (TypeError_undefined "name"). split; [reflexivity |].
    intros b Hb. discriminate Hb.
Qed.

(** A file part under another field is refused before anything is
    written and before the handler runs. *)
Lemma router_post_other_field (e : env) (req : request) (p : multipart_file)
    (rest : list multipart_file) (w : world) :
  named_files (files req) = p :: rest ->
  field_name p <> "image" ->
  router_post e req w =
    (Returned {| status := 500; json := ErrorPage unexpected_field |}, w).
Proof.
  intros Hnamed Hfield. apply String.eqb_neq in Hfield.
  unfold router_post, express_default, upload_single.
  rewrite Hnamed, Hfield. reflexivity.
Qed.

(** A second file part is refused after the first was stored: the
    stored file is removed again and the handler does not run. *)
Lemma router_post_second_file (e : env) (req : request)
    (p q : multipart_file) (rest : list multipart_file) (w : world) :
  named_files (files req) = p :: q :: rest ->
  field_name p = "image" ->
  router_post e req w =
    (Returned {| status := 500; json := ErrorPage unexpected_field |},
     with_uploads
       (delete (storage_filename (arrival_ms e) (incoming_file p))
          (<[storage_filename (arrival_ms e) (incoming_file p)
             := file_bytes p]> (uploads w))) w).
Proof.
  intros Hnamed Hfield.
  unfold router_post, express_default, upload_single.
  rewrite Hnamed, Hfield. reflexivity.
Qed.

Lemma created_document_fields (e : env) (b : object) (f : string) :
  let doc := created_document e b f in
  doc !! "_id" = Some (VId (pk e))
  /\ doc !! "name" = Some (bson (get_prop b "name"))
  /\ doc !! "type" = Some (bson (get_prop b "type"))
  /\ doc !! "description" = Some (bson (get_prop b "description"))
  /\ doc !! "color" = Some (bson (js_or (get_prop b "color") (VStr "")))
  /\ doc !! "lifeSpan" = Some (bson (js_or (get_prop b "lifeSpan") (VStr "")))
  /\ doc !! "imagePath" = Some (VStr ("/uploads/" +:+ f))
  /\ doc !! "createdAt" = Some (VDate (created_ms e)).
Proof. repeat split; reflexivity. Qed.

Lemma get_prop_absent (b : object) (k : string) :
  b !! k = None -> get_prop b k = VUndefined.
Proof. intros H. unfold get_prop. rewrite H. reflexivity. Qed.

Lemma get_prop_present (b : object) (k : string) (v : value) :
  b !! k = Some v -> get_prop b k = v.
Proof. intros H. unfold get_prop. rewrite H. reflexivity. Qed.










(** ** The read routes *)

Lemma router_get_id_found (req : request) (o : ObjectId) (w : world)
    (i : nat) (d : document) :
  ObjectId_new (params_id req) = inr o ->
  fault w = None ->
  list_find (has_id o) (images w) = Some (i, d) ->
  router_get_id req w =
    (Returned {| status := 200; json := JDocument d |}, w).
Proof.
  intros Hparse Hfault Hfind.
  unfold router_get_id, new_ObjectId, findOne, driver.
  rewrite Hparse. run_io. rewrite Hfault, Hfind. reflexivity.
Qed.

(** C4: get-by-id with a well-formed identifier, against a reachable
    store.  If no document has that id the answer is 404 with the fixed
    message "Image not found"; if one has, the answer is 200 with that
    document (the first one in scan order carrying the id).  The state is
    left as it was in both cases. *)
Theorem get_by_id_found_or_404 (req : request) (o : ObjectId) (w : world) :
  ObjectId_new (params_id req) = inr o ->
  fault w = None ->
  ((forall d, d ∈ images w -> ¬ has_id o d) ->
     router_get_id req w =
       (Returned {| status := 404; json := JMessage "Image not found" |}, w))
  /\ ((exists d, d ∈ images w /\ has_id o d) ->
      exists (i : nat) (d : document),
        images w !! i = Some d /\ has_id o d
        /\ (forall j d', images w !! j = Some d' -> (j < i)%nat -> ¬ has_id o d')
        /\ router_get_id req w =
             (Returned {| status := 200; json := JDocument d |}, w)).
Proof.
  intros Hparse Hfault. split.
  - intros Hnone.
    unfold router_get_id, new_ObjectId, findOne, driver.
    rewrite Hparse. run_io. rewrite Hfault.
    rewrite list_find_no_match; [reflexivity |].
    apply Forall_forall. exact Hnone.
  - intros (d0 & Hin & Hid).
    destruct (list_find (has_id o) (images w)) as [[i d] |] eqn:Hfind.
    + pose proof Hfind as Hsome.
      apply list_find_Some in Hsome. destruct Hsome as (Hi & Hd & Hfirst).
      exists i, d. repeat split; try assumption.
      apply (router_get_id_found req o w i d); assumption.
    + apply list_find_None in Hfind.
      rewrite Forall_forall in Hfind.
      exfalso. exact (Hfind d0 Hin Hid).
Qed.

(** C5: get-by-id with an identifier that is not 24 hexadecimal
    characters.  The ObjectId constructor throws, no branch of the
    handler tells this from any other error, and the answer is 500 with
    the thrown error's message; it is not the 404 of the not-found
    branch. *)
Theorem get_by_id_malformed_is_500 (req : request) (w : world) :
  String.length (params_id req) ≠ 24%nat
  \/ hex_value (params_id req) 0%N = None ->
  exists r : response,
    router_get_id req w = (Returned r, w)
    /\ ObjectId_new (params_id req) = inl ObjectId_error
    /\ status r = 500%nat
    /\ json r = JMessage ObjectId_error
    /\ status r ≠ 404%nat.
Proof.
  intros Hbad.
  assert (Hparse : ObjectId_new (params_id req) = inl ObjectId_error).
  { unfold ObjectId_new.
    destruct Hbad as [Hlen | Hhex].
    - apply Nat.eqb_neq in Hlen. rewrite Hlen. reflexivity.
    - rewrite Hhex. destruct (Nat.eqb _ _); reflexivity. }
  exists {| status := 500; json := JMessage ObjectId_error |}.
  unfold router_get_id, new_ObjectId. rewrite Hparse. run_io.
  split; [reflexivity |].
  split; [reflexivity |].
  split; [reflexivity |].
  split; [reflexivity | discriminate].
Qed.

(** C10: the list and get-by-id routes only read.  Whatever the request
    and the state, the collection, the uploads directory and the store's
    condition after the call are those before it, so the same call
    repeated right after gives the same response. *)
Theorem read_routes_are_read_only (req : request) (w : world) :
  snd (router_get req w) = w
  /\ snd (router_get_id req w) = w
  /\ router_get req (snd (router_get req w)) = router_get req w
  /\ router_get_id req (snd (router_get_id req w)) = router_get_id req w.
Proof.
  assert (Hlist : snd (router_get req w) = w).
  { unfold router_get, find_toArray, driver. run_io.
    destruct (fault w); reflexivity. }
  assert (Hone : snd (router_get_id req w) = w).
  { unfold router_get_id, new_ObjectId, findOne, driver.
    destruct (ObjectId_new (params_id req)) as [msg | o]; run_io;
      [reflexivity |].
    destruct (fault w); [reflexivity |]. simpl.
    destruct (list_find (has_id o) (images w)) as [[i d] |]; reflexivity. }
  rewrite Hlist, Hone. repeat split; reflexivity.
Qed.

(** ** The update route *)

Lemma router_put_matched (req : request) (o : ObjectId) (b : object)
    (w : world) (i : nat) (d : document) :
  ObjectId_new (params_id req) = inr o ->
  body req = Some b ->
  fault w = None ->
  list_find (has_id o) (images w) = Some (i, d) ->
  router_put req w =
    (Returned
       {| status := 200;
          json := JUpdate
            {| upd_acknowledged := true;
               matchedCount := 1;
               modifiedCount :=
                 if decide (apply_set (put_fields b) d = d) then 0 else 1;
               upsertedCount := 0;
               upsertedId := None |} |},
     with_images (<[i := apply_set (put_fields b) d]> (images w)) w).
Proof.
  intros Hparse Hbody Hfault Hfind.
  unfold router_put, new_ObjectId, body_prop, updateOne, driver.
  rewrite Hparse, Hbody. run_io. rewrite Hfault.
  fold (put_fields b). rewrite Hfind. reflexivity.
Qed.

Lemma router_put_unmatched (req : request) (o : ObjectId) (b : object)
    (w : world) :
  ObjectId_new (params_id req) = inr o ->
  body req = Some b ->
  fault w = None ->
  list_find (has_id o) (images w) = None ->
  router_put req w =
    (Returned
       {| status := 200;
          json := JUpdate
            {| upd_acknowledged := true;
               matchedCount := 0;
               modifiedCount := 0;
               upsertedCount := 0;
               upsertedId := None |} |},
     w).
Proof.
  intros Hparse Hbody Hfault Hfind.
  unfold router_put, new_ObjectId, body_prop, updateOne, driver.
  rewrite Hparse, Hbody. run_io. rewrite Hfault.
  fold (put_fields b). rewrite Hfind. reflexivity.
Qed.

(** What an update can do to the state: nothing, or rewrite one document
    of the collection by the handler's $set. *)
Lemma router_put_state (req : request) (w : world) :
  snd (router_put req w) = w
  \/ exists o b i d,
       list_find (has_id o) (images w) = Some (i, d)
       /\ body req = Some b
       /\ snd (router_put req w) =
            with_images (<[i := apply_set (put_fields b) d]> (images w)) w.
Proof.
  destruct (ObjectId_new (params_id req)) as [msg | o] eqn:Hparse.
  { left. unfold router_put, new_ObjectId. rewrite Hparse. reflexivity. }
  destruct (body req) as [b |] eqn:Hbody.
  2: { left. unfold router_put, new_ObjectId, body_prop.
       rewrite Hparse, Hbody. reflexivity. }
  destruct (fault w) as [msg |] eqn:Hfault.
  { left. unfold router_put, new_ObjectId, body_prop, updateOne, driver.
    rewrite Hparse, Hbody. run_io. rewrite Hfault. reflexivity. }
  destruct (list_find (has_id o) (images w)) as [[i d] |] eqn:Hfind.
  - right. exists o, b, i, d.
    rewrite (router_put_matched req o b w i d) by assumption. auto.
  - left. rewrite (router_put_unmatched req o b w) by assumption.
    reflexivity.
Qed.

Lemma put_fields_lookup (b : object) (k : string) :
  k ∈ text_keys -> put_fields b !! k = Some (get_prop b k).
Proof.
  unfold text_keys. rewrite !elem_of_cons, elem_of_nil.
  intros [-> | [-> | [-> | [-> | [-> | []]]]]]; reflexivity.
Qed.

Lemma put_fields_other (b : object) (k : string) :
  k ∉ text_keys -> put_fields b !! k = None.
Proof.
  unfold text_keys. rewrite !not_elem_of_cons.
  intros (H1 & H2 & H3 & H4 & H5 & _).
  unfold put_fields, update_set.
  rewrite !lookup_insert_ne by congruence.
  apply lookup_empty.
Qed.

Lemma apply_set_written (b : object) (d : document) (k : string) :
  k ∈ text_keys -> apply_set (put_fields b) d !! k = Some (bson (get_prop b k)).
Proof.
  intros Hk. unfold apply_set.
  apply lookup_union_Some_l.
  rewrite lookup_fmap, (put_fields_lookup b k Hk). reflexivity.
Qed.

Lemma apply_set_kept (b : object) (d : document) (k : string) :
  k ∉ text_keys -> apply_set (put_fields b) d !! k = d !! k.
Proof.
  intros Hk. unfold apply_set.
  apply lookup_union_r.
  rewrite lookup_fmap, (put_fields_other b k Hk). reflexivity.
Qed.

(** C2: an update request with a well-formed id and a body, against a
    reachable store.  The keys of the $set the handler sends are exactly
    name, type, description, color and lifespan, whatever the body
    holds; a key the body omits is sent as undefined.  The answer is 200
    with the store's update result (matched and modified counts).  In
    the matching document every one of the five fields is overwritten
    with the body's value, so a field the body omits is overwritten too
    (stored as null, the store's rendering of undefined) rather than
    left as it was. *)
Theorem update_sends_all_five_keys (req : request) (o : ObjectId)
    (b : object) (w : world) :
  ObjectId_new (params_id req) = inr o ->
  body req = Some b ->
  fault w = None ->
  dom (put_fields b) = list_to_set text_keys
  /\ (forall k, k ∈ text_keys -> b !! k = None ->
        put_fields b !! k = Some VUndefined)
  /\ (exists (r : UpdateResult) (w' : world),
        updateOne o (put_fields b) w = (Returned r, w')
        /\ router_put req w =
             (Returned {| status := 200; json := JUpdate r |}, w'))
  /\ (forall i d, list_find (has_id o) (images w) = Some (i, d) ->
        exists d' : document,
          images (snd (router_put req w)) !! i = Some d'
          /\ (forall k, k ∈ text_keys -> d' !! k = Some (bson (get_prop b k)))
          /\ (forall k, k ∈ text_keys -> b !! k = None ->
                d' !! k = Some VNull)).
Proof.
  intros Hparse Hbody Hfault.
  split.
  { apply set_eq. intros k. rewrite elem_of_dom, elem_of_list_to_set.
    split.
    - intros [v Hv]. destruct (decide (k ∈ text_keys)) as [Hk | Hk];
        [exact Hk |].
      rewrite (put_fields_other b k Hk) in Hv. discriminate Hv.
    - intros Hk. rewrite (put_fields_lookup b k Hk). eauto. }
  split.
  { intros k Hk Hnone.
    rewrite (put_fields_lookup b k Hk), (get_prop_absent b k Hnone).
    reflexivity. }
  split.
  { destruct (list_find (has_id o) (images w)) as [[i d] |] eqn:Hfind.
    - do 2 eexists. split.
      + unfold updateOne, driver. rewrite Hfault, Hfind. reflexivity.
      + apply (router_put_matched req o b w i d); assumption.
    - do 2 eexists. split.
      + unfold updateOne, driver. rewrite Hfault, Hfind. reflexivity.
      + apply (router_put_unmatched req o b w); assumption. }
  intros i d Hfind.
  rewrite (router_put_matched req o b w i d) by assumption. simpl.
  exists (apply_set (put_fields b) d).
  split.
  { apply list_lookup_insert_eq.
    apply list_find_Some in Hfind. destruct Hfind as (Hi & _).
    apply (lookup_lt_Some _ _ _ Hi). }
  split.
  { intros k Hk. apply apply_set_written. exact Hk. }
  intros k Hk Hnone.
  rewrite (apply_set_written b d k Hk), (get_prop_absent b k Hnone).
  reflexivity.
Qed.

(** C3: an update never touches a record's id, imagePath or createdAt,
    nor its lifeSpan (the handler writes lifespan, another key).  For
    every request and every document of the collection, the document at
    the same position after the call agrees with it on every key other
    than the five the handler writes; the collection keeps its length
    and the uploads directory is as it was. *)
Theorem update_keeps_identity_fields (req : request) (w : world) (i : nat)
    (d : document) :
  images w !! i = Some d ->
  exists d' : document,
    images (snd (router_put req w)) !! i = Some d'
    /\ (forall k, k ∉ text_keys -> d' !! k = d !! k)
    /\ d' !! "_id" = d !! "_id"
    /\ d' !! "imagePath" = d !! "imagePath"
    /\ d' !! "createdAt" = d !! "createdAt"
    /\ d' !! "lifeSpan" = d !! "lifeSpan"
    /\ length (images (snd (router_put req w))) = length (images w)
    /\ uploads (snd (router_put req w)) = uploads w.
Proof.
  intros Hi.
  assert (Hframe : exists d' : document,
            images (snd (router_put req w)) !! i = Some d'
            /\ (forall k, k ∉ text_keys -> d' !! k = d !! k)
            /\ length (images (snd (router_put req w))) = length (images w)
            /\ uploads (snd (router_put req w)) = uploads w).
  { destruct (router_put_state req w)
      as [Hsame | (o & b & j & dj & Hfind & _ & Hstate)].
    - rewrite Hsame. exists d. auto.
    - rewrite Hstate. simpl.
      apply list_find_Some in Hfind. destruct Hfind as (Hj & _ & _).
      destruct (decide (j = i)) as [-> | Hne].
      + exists (apply_set (put_fields b) dj).
        split.
        { apply list_lookup_insert_eq. apply (lookup_lt_Some _ _ _ Hj). }
        split.
        { intros k Hk. rewrite (apply_set_kept b dj k Hk). congruence. }
        split; [apply length_insert | reflexivity].
      + exists d.
        split; [rewrite list_lookup_insert_ne by exact Hne; exact Hi |].
        split; [reflexivity |].
        split; [apply length_insert | reflexivity]. }
  destruct Hframe as (d' & Hd' & Hkeep & Hlen & Hup).
  exists d'.
  split; [exact Hd' |].
  split; [exact Hkeep |].
  repeat (split; [apply Hkeep; compute_done |]).
  split; [exact Hlen | exact Hup].
Qed.

(** C6: an update naming a well-formed id that no document carries,
    with a body, against a reachable store: the answer is 200 (not 404)
    with matched and modified counts 0 and nothing upserted, and the
    state is unchanged, so no record is created. *)
Theorem update_of_missing_id_is_200 (req : request) (o : ObjectId)
    (b : object) (w : world) :
  ObjectId_new (params_id req) = inr o ->
  body req = Some b ->
  fault w = None ->
  (forall d, d ∈ images w -> ¬ has_id o d) ->
  router_put req w =
    (Returned
       {| status := 200;
          json := JUpdate
            {| upd_acknowledged := true;
               matchedCount := 0;
               modifiedCount := 0;
               upsertedCount := 0;
               upsertedId := None |} |},
     w).
Proof.
  intros Hparse Hbody Hfault Hnone.
  apply (router_put_unmatched req o b w); try assumption.
  apply list_find_no_match, Forall_forall. exact Hnone.
Qed.

(** ** File names of the disk storage *)

Lemma string_length_app (s r : string) :
  String.length (s +:+ r) = (String.length s + String.length r)%nat.
Proof. induction s as [| c s IH]; simpl; [reflexivity | rewrite IH; reflexivity]. Qed.

Lemma string_app_same_length (s1 s2 r1 r2 : string) :
  String.length s1 = String.length s2 ->
  s1 +:+ r1 = s2 +:+ r2 -> s1 = s2.
Proof.
  revert s2. induction s1 as [| c s1 IH]; intros [| c' s2]; simpl;
    try discriminate; [reflexivity |].
  intros Hlen Heq. injection Hlen as Hlen. injection Heq as Hc Heq.
  rewrite Hc, (IH s2 Hlen Heq). reflexivity.
Qed.

Lemma string_app_inj_r (s1 s2 r : string) : s1 +:+ r = s2 +:+ r -> s1 = s2.
Proof.
  intros Heq. apply (string_app_same_length s1 s2 r r); [| exact Heq].
  apply (f_equal String.length) in Heq.
  rewrite !string_length_app in Heq. lia.
Qed.

(** Two uploads of one client file name get one stored name exactly when
    they arrive in the same millisecond. *)
Lemma storage_filename_same_name (t1 t2 : Z) (f g : file_part) :
  part_originalname f = part_originalname g ->
  storage_filename t1 f = storage_filename t2 g <-> t1 = t2.
Proof.
  intros Hname. unfold storage_filename. rewrite Hname. split.
  - intros Heq. apply string_app_inj_r in Heq.
    apply (inj pretty) in Heq. exact Heq.
  - intros ->. reflexivity.
Qed.

(** C7 (the code at the failing input): two create requests that arrive
    in the same millisecond with the same client file name and different
    bytes.  Both are answered 201 and both documents are stored, but the
    storage gives both files one name: the second upload replaces the
    first file, and the two documents share one imagePath, which serves
    the second upload's bytes. *)
Theorem same_millisecond_uploads_share_a_file :
  let r1 := router_post cat_env cat_request empty_world in
  let r2 := router_post other_env other_request (snd r1) in
  part_content cat_jpg ≠ part_content other_cat_jpg
  /\ storage_filename (arrival_ms cat_env) cat_jpg = "1700000000000-cat.jpg"
  /\ storage_filename (arrival_ms other_env) other_cat_jpg
     = "1700000000000-cat.jpg"
  /\ (exists a, fst r1 = Returned {| status := 201; json := JInsert a |})
  /\ (exists a, fst r2 = Returned {| status := 201; json := JInsert a |})
  /\ uploads (snd r1) !! "1700000000000-cat.jpg" = Some (part_content cat_jpg)
  /\ uploads (snd r2) !! "1700000000000-cat.jpg"
     = Some (part_content other_cat_jpg)
  /\ dom (uploads (snd r2)) = {["1700000000000-cat.jpg"]}
  /\ length (images (snd r2)) = 2%nat
  /\ Forall (fun d : document =>
       d !! "imagePath" = Some (VStr "/uploads/1700000000000-cat.jpg"))
       (images (snd r2)).
Proof.
  intros r1 r2.
  split; [discriminate |].
  split; [vm_compute; reflexivity |].
  split; [vm_compute; reflexivity |].
  split; [eexists; vm_compute; reflexivity |].
  split; [eexists; vm_compute; reflexivity |].
  split; [vm_compute; reflexivity |].
  split; [vm_compute; reflexivity |].
  split; [vm_compute; reflexivity |].
  split; [vm_compute; reflexivity |].
  repeat constructor.
Qed.

(** ** The routes on sample data *)

Lemma cat_world_images : images cat_world = [cat_document].
Proof. vm_compute. reflexivity. Qed.

Lemma cat_world_no_255 : forall d, d ∈ images cat_world -> ¬ has_id 255%N d.
Proof.
  intros d Hd. rewrite cat_world_images in Hd.
  apply list_elem_of_singleton in Hd. subst d.
  unfold has_id. vm_compute. discriminate.
Qed.

Lemma update_sends_all_five_keys_witness :
  exists d' : document,
    images (snd (router_put rename_cat_request cat_world)) !! 0%nat = Some d'
    /\ cat_document !! "type" = Some (VStr "Mammal")
    /\ d' !! "name" = Some (VStr "Updated Cat")
    /\ d' !! "type" = Some VNull
    /\ fst (router_put rename_cat_request cat_world) =
         Returned {| status := 200;
                     json := JUpdate {| upd_acknowledged := true;
                                        matchedCount := 1;
                                        modifiedCount := 1;
                                        upsertedCount := 0;
                                        upsertedId := None |} |}.
Proof.
  destruct (update_sends_all_five_keys rename_cat_request 1%N rename_body
              cat_world eq_refl eq_refl eq_refl)
    as (_ & _ & _ & Hdoc).
  destruct (Hdoc 0%nat cat_document) as (d' & Hd' & Hset & Hnull).
  { vm_compute. reflexivity. }
  exists d'.
  split; [exact Hd' |].
  split; [reflexivity |].
  split; [rewrite (Hset "name"); [reflexivity | compute_done] |].
  split; [apply Hnull; [compute_done | reflexivity] |].
  vm_compute. reflexivity.
Defined.

Lemma update_keeps_identity_fields_witness :
  exists d' : document,
    images (snd (router_put rename_cat_request cat_world)) !! 0%nat = Some d'
    /\ d' !! "_id" = Some (VId 1%N)
    /\ d' !! "imagePath" = Some (VStr "/uploads/1700000000000-cat.jpg")
    /\ d' !! "createdAt" = Some (VDate 1700000000007)
    /\ d' !! "lifeSpan" = Some (VStr "").
Proof.
  destruct (update_keeps_identity_fields rename_cat_request cat_world 0%nat
              cat_document)
    as (d' & Hd' & _ & Hid & Hpath & Hat & Hspan & _).
  { vm_compute. reflexivity. }
  exists d'.
  split; [exact Hd' |].
  split; [rewrite Hid; reflexivity |].
  split; [rewrite Hpath; reflexivity |].
  split; [rewrite Hat; reflexivity |].
  rewrite Hspan. reflexivity.
Defined.

Lemma get_by_id_found_or_404_witness :
  router_get_id get_missing_request cat_world =
    (Returned {| status := 404; json := JMessage "Image not found" |},
     cat_world)
  /\ exists d : document,
       d !! "name" = Some (VStr "Cat")
       /\ router_get_id get_cat_request cat_world =
            (Returned {| status := 200; json := JDocument d |}, cat_world).
Proof.
  split.
  - apply (get_by_id_found_or_404 get_missing_request 255%N cat_world
             eq_refl eq_refl).
    exact cat_world_no_255.
  - destruct (get_by_id_found_or_404 get_cat_request 1%N cat_world
                eq_refl eq_refl) as [_ Hfound].
    destruct Hfound as (i & d & Hi & Hid & _ & Hrun).
    { exists cat_document. split.
      - rewrite cat_world_images. apply list_elem_of_singleton. reflexivity.
      - reflexivity. }
    exists d. split; [| exact Hrun].
    rewrite cat_world_images in Hi.
    destruct i as [| i]; simpl in Hi; [| discriminate Hi].
    injection Hi as <-. reflexivity.
Defined.

Lemma get_by_id_malformed_is_500_witness :
  exists r : response,
    router_get_id get_malformed_request cat_world = (Returned r, cat_world)
    /\ status r = 500%nat
    /\ json r =
         JMessage
           "input must be a 24 character hex string, 12 byte Uint8Array, or an integer".
Proof.
  destruct (get_by_id_malformed_is_500 get_malformed_request cat_world)
    as (r & Hrun & _ & Hstatus & Hjson & _).
  { left. simpl. lia. }
  exists r. split; [exact Hrun |]. split; [exact Hstatus | exact Hjson].
Defined.

Lemma update_of_missing_id_is_200_witness :
  router_put rename_missing_request cat_world =
    (Returned
       {| status := 200;
          json := JUpdate
            {| upd_acknowledged := true;
               matchedCount := 0;
               modifiedCount := 0;
               upsertedCount := 0;
               upsertedId := None |} |},
     cat_world).
Proof.
  apply (update_of_missing_id_is_200 rename_missing_request 255%N rename_body
           cat_world eq_refl eq_refl eq_refl).
  exact cat_world_no_255.
Defined.

(** ** Outcomes of the create route *)

Lemma existsb_same_id_false (o : ObjectId) (l : list document) :
  existsb (same_id (VId o)) l = false -> Forall (fun d => ¬ has_id o d) l.
Proof.
  induction l as [| d l IH]; simpl; intros H; [constructor |].
  apply orb_false_iff in H. destruct H as [Hd Hl].
  constructor; [| exact (IH Hl)].
  unfold same_id in Hd. apply bool_decide_eq_false in Hd. exact Hd.
Qed.

Lemma after_upload_images (e : env) (req : request) (w : world) :
  images (after_upload e req w) = images w.
Proof. apply upload_single_images. Qed.

Lemma after_upload_fault (e : env) (req : request) (w : world) :
  fault (after_upload e req w) = fault w.
Proof. apply upload_single_images. Qed.

Lemma after_upload_file (e : env) (req : request) (p : multipart_file)
    (w : world) :
  carries_image req p ->
  uploads (after_upload e req w) =
    <[storage_filename (arrival_ms e) (incoming_file p) := file_bytes p]>
      (uploads w).
Proof.
  intros [Hnamed Hfield]. unfold after_upload, upload_single.
  rewrite Hnamed, Hfield. reflexivity.
Qed.

(** The file parts are as Multer accepts them for this route: none with
    a file name, or exactly one, under "image". *)
Lemma multer_accepts_dec (req : request) :
  (named_files (files req) = [] \/ exists p, carries_image req p)
  \/ ((exists p rest, named_files (files req) = p :: rest
                      /\ field_name p <> "image")
      \/ multer_unlinks req).
Proof.
  unfold carries_image, multer_unlinks.
  destruct (named_files (files req)) as [| p rest]; [auto |].
  destruct (decide (field_name p = "image")) as [Hfield | Hfield].
  - destruct rest as [| q rest].
    + left. right. exists p. auto.
    + right. right. exists p, q, rest. auto.
  - right. left. exists p, rest. auto.
Qed.

Lemma multer_refusal_excludes (req : request) :
  ((exists p rest, named_files (files req) = p :: rest
                   /\ field_name p <> "image")
   \/ multer_unlinks req) ->
  ¬ (named_files (files req) = [] \/ exists p, carries_image req p).
Proof.
  unfold carries_image, multer_unlinks.
  intros [(p & rest & Hnamed & Hfield) | (p & q & rest & Hnamed & Hfield)]
         [Hnil | (p' & Hp' & Hf')];
    rewrite Hnamed in *; try discriminate.
  injection Hp' as <- _. contradiction.
Qed.

(** Every run of the create route ends in one of three ways: the
    document is stored, the handler fails, or Multer refuses the file
    parts. *)
Lemma router_post_cases (e : env) (req : request) (w : world) :
  (exists p b,
     carries_image req p /\ body req = Some b /\ fault w = None
     /\ Forall (fun d => ¬ has_id (pk e) d) (images w)
     /\ router_post e req w =
          (Returned {| status := 201;
                       json := JInsert {| ins_acknowledged := true;
                                          insertedId := VId (pk e) |} |},
           with_images
             (images w ++
                [created_document e b
                   (storage_filename (arrival_ms e) (incoming_file p))])
             (after_upload e req w)))
  \/ (exists msg,
        (named_files (files req) = [] \/ exists p, carries_image req p)
        /\ router_post e req w =
             (Returned {| status := 500; json := JMessage msg |},
              after_upload e req w))
  \/ (¬ (named_files (files req) = [] \/ exists p, carries_image req p)
      /\ router_post e req w =
           (Returned {| status := 500; json := ErrorPage unexpected_field |},
            after_upload e req w)).
Proof.
  destruct (multer_accepts_dec req) as [Hacc | Hrefused].
  2: { right. right. split; [apply multer_refusal_excludes; exact Hrefused |].
       unfold after_upload.
       destruct Hrefused
         as [(p & rest & Hnamed & Hfield) | (p & q & rest & Hnamed & Hfield)].
       - rewrite (router_post_other_field e req p rest w Hnamed Hfield).
         apply String.eqb_neq in Hfield.
         unfold upload_single. rewrite Hnamed, Hfield. reflexivity.
       - rewrite (router_post_second_file e req p q rest w Hnamed Hfield).
         unfold upload_single. rewrite Hnamed, Hfield. reflexivity. }
  destruct Hacc as [Hnil | [p Hp]].
  { right. left.
    destruct (router_post_no_file e req w Hnil) as (msg & Hrun & _).
    exists msg. split; [auto |]. rewrite Hrun.
    unfold after_upload, upload_single. rewrite Hnil. reflexivity. }
  pose proof Hp as [Hnamed Hfield].
  assert (Hafter : after_upload e req w =
            with_uploads
              (<[storage_filename (arrival_ms e) (incoming_file p)
                 := file_bytes p]> (uploads w)) w).
  { unfold after_upload, upload_single. rewrite Hnamed, Hfield. reflexivity. }
  destruct (body req) as [b |] eqn:Hbody.
  2: { right. left. exists (TypeError_undefined "name").
       split; [eauto |]. rewrite Hafter.
       unfold router_post, express_default, upload_single, handle_file,
         post_handler, body_prop.
       rewrite Hnamed, Hfield, Hbody. reflexivity. }
  destruct (fault w) as [msg |] eqn:Hfault.
  { right. left. exists msg. split; [eauto |]. rewrite Hafter.
    unfold router_post, express_default, upload_single, handle_file,
      post_handler, body_prop, file_filename, insertOne, driver.
    rewrite Hnamed, Hfield, Hbody. run_io. rewrite Hfault. reflexivity. }
  destruct (existsb (same_id (VId (pk e))) (images w)) eqn:Hdup.
  { right. left. exists duplicate_key_error. split; [eauto |]. rewrite Hafter.
    unfold router_post, express_default, upload_single, handle_file,
      post_handler, body_prop, file_filename, insertOne, driver.
    rewrite Hnamed, Hfield, Hbody. run_io.
    rewrite Hfault, imageData_no_id, Hdup. reflexivity. }
  left. exists p, b.
  pose proof (existsb_same_id_false _ _ Hdup) as Hfresh.
  repeat (split; [assumption || reflexivity |]).
  rewrite (router_post_ok e req p b w Hp Hbody Hfault Hfresh), Hafter.
  reflexivity.
Qed.

Lemma router_post_two_cases (e : env) (req : request) (w : world) :
  (exists p b,
     carries_image req p /\ body req = Some b /\ fault w = None
     /\ Forall (fun d => ¬ has_id (pk e) d) (images w)
     /\ router_post e req w =
          (Returned {| status := 201;
                       json := JInsert {| ins_acknowledged := true;
                                          insertedId := VId (pk e) |} |},
           with_images
             (images w ++
                [created_document e b
                   (storage_filename (arrival_ms e) (incoming_file p))])
             (after_upload e req w)))
  \/ (exists j : payload,
        router_post e req w =
          (Returned {| status := 500; json := j |}, after_upload e req w)).
Proof.
  destruct (router_post_cases e req w)
    as [Hok | [(msg & _ & Hrun) | (_ & Hrun)]]; [left; exact Hok | |];
    right; eexists; exact Hrun.
Qed.

(** ** Outcomes of the other routes *)

Lemma router_get_cases (req : request) (w : world) :
  (fault w = None
   /\ router_get req w =
        (Returned {| status := 200; json := JDocuments (images w) |}, w))
  \/ (exists msg,
        fault w = Some msg
        /\ router_get req w =
             (Returned {| status := 500; json := JMessage msg |}, w)).
Proof.
  unfold router_get, find_toArray, driver. run_io.
  destruct (fault w) as [msg |]; [right; exists msg | left]; auto.
Qed.

Lemma router_get_id_cases (req : request) (w : world) :
  exists r : response,
    router_get_id req w = (Returned r, w) /\ status r ∈ [200; 404; 500]%nat.
Proof.
  unfold router_get_id, new_ObjectId, findOne, driver.
  destruct (ObjectId_new (params_id req)) as [msg | o]; run_io.
  { eexists. split; [reflexivity | compute_done]. }
  destruct (fault w) as [msg |]; simpl.
  { eexists. split; [reflexivity | compute_done]. }
  destruct (list_find (has_id o) (images w)) as [[i d] |]; simpl;
    eexists; (split; [reflexivity | compute_done]).
Qed.

Lemma router_put_cases (req : request) (w : world) :
  exists (r : response) (w' : world),
    router_put req w = (Returned r, w') /\ status r ∈ [200; 500]%nat.
Proof.
  unfold router_put, new_ObjectId, body_prop, updateOne, driver.
  destruct (ObjectId_new (params_id req)) as [msg | o]; run_io.
  { do 2 eexists. split; [reflexivity | compute_done]. }
  destruct (body req) as [b |]; run_io.
  2: { do 2 eexists. split; [reflexivity | compute_done]. }
  destruct (fault w) as [msg |]; simpl.
  { do 2 eexists. split; [reflexivity | compute_done]. }
  destruct (list_find (has_id o) _) as [[i d] |]; simpl;
    do 2 eexists; (split; [reflexivity | compute_done]).
Qed.

(** X1: every route answers every request whose body the parsers
    accepted, in every state: no error is left unanswered, and the
    status is 201 or 500 for create, 200 or 500 for list, 200, 404 or
    500 for get-by-id, 200 or 500 for update. *)
Theorem routes_always_respond (op : operation) (e : env) (req : request)
    (w : world) :
  exists (r : response) (w' : world),
    run op e req w = (Returned r, w') /\ status r ∈ statuses op.
Proof.
  destruct op; simpl.
  - destruct (router_post_cases e req w)
      as [(p & b & _ & _ & _ & _ & Hrun) | [(msg & _ & Hrun) | (_ & Hrun)]];
      rewrite Hrun; do 2 eexists; (split; [reflexivity | compute_done]).
  - destruct (router_get_cases req w) as [[_ Hrun] | (msg & _ & Hrun)];
      rewrite Hrun; do 2 eexists; (split; [reflexivity | compute_done]).
  - destruct (router_get_id_cases req w) as (r & Hrun & Hst).
    exists r, w. auto.
  - apply router_put_cases.
Qed.



(** X4: the upload is not undone when the handler fails.  If a create
    request whose file Multer stored (its file parts with a file name
    are exactly one, under "image") is answered 500, the file is in the
    uploads directory under its storage name all the same, and no
    document was added. *)
Theorem failed_create_keeps_uploaded_file (e : env) (req : request)
    (p : multipart_file) (w w' : world) (r : response) :
  carries_image req p ->
  router_post e req w = (Returned r, w') ->
  status r = 500%nat ->
  images w' = images w
  /\ uploads w' =
       <[storage_filename (arrival_ms e) (incoming_file p) := file_bytes p]>
         (uploads w).
Proof.
  intros Himage Hrun Hst.
  destruct (router_post_cases e req w)
    as [(p' & b & _ & _ & _ & _ & Hrun')
       | [(msg & _ & Hrun') | (_ & Hrun')]];
    rewrite Hrun' in Hrun; injection Hrun as <- <-.
  - discriminate Hst.
  - split; [apply after_upload_images | apply after_upload_file; exact Himage].
  - split; [apply after_upload_images | apply after_upload_file; exact Himage].
Qed.

Lemma failed_create_keeps_uploaded_file_witness :
  exists w' : world,
    router_post cat_env path_request down_world =
      (Returned {| status := 500; json := JMessage "connect ECONNREFUSED" |},
       w')
    /\ images w' = []
    /\ uploads w' !! "1700000000000-cat.jpg" = Some (file_bytes path_upload).
Proof.
  exists (snd (router_post cat_env path_request down_world)).
  split; [vm_compute; reflexivity |].
  destruct (failed_create_keeps_uploaded_file cat_env path_request path_upload
              down_world (snd (router_post cat_env path_request down_world))
              {| status := 500; json := JMessage "connect ECONNREFUSED" |})
    as [Himgs Hup].
  - split; reflexivity.
  - vm_compute. reflexivity.
  - reflexivity.
  - split; [exact Himgs |]. rewrite Hup. vm_compute. reflexivity.
Defined.

(** ** How the routes compose *)

Lemma created_document_has_id (e : env) (b : object) (f : string) :
  has_id (pk e) (created_document e b f).
Proof. reflexivity. Qed.

Lemma list_find_appended (o : ObjectId) (l : list document) (d : document) :
  Forall (fun x => ¬ has_id o x) l ->
  has_id o d ->
  list_find (has_id o) (l ++ [d]) = Some (length l, d).
Proof.
  intros Hnone Hd.
  rewrite list_find_app_r by (apply list_find_no_match; exact Hnone).
  simpl. rewrite decide_True by exact Hd. reflexivity.
Qed.

Lemma list_find_rewritten (o : ObjectId) (l : list document) (i : nat)
    (d d' : document) :
  list_find (has_id o) l = Some (i, d) ->
  has_id o d' ->
  list_find (has_id o) (<[i := d']> l) = Some (i, d').
Proof.
  intros Hfind Hd'.
  apply list_find_Some in Hfind. destruct Hfind as (Hi & _ & Hfirst).
  apply list_find_Some. split.
  { apply list_lookup_insert_eq. apply (lookup_lt_Some _ _ _ Hi). }
  split; [exact Hd' |].
  intros j y Hj Hlt.
  rewrite list_lookup_insert_ne in Hj by lia.
  exact (Hfirst j y Hj Hlt).
Qed.

Lemma apply_set_has_id (o : ObjectId) (b : object) (d : document) :
  has_id o d -> has_id o (apply_set (put_fields b) d).
Proof.
  unfold has_id. intros Hd.
  rewrite apply_set_kept by compute_done. exact Hd.
Qed.

Lemma apply_set_twice (fields : object) (d : document) :
  apply_set fields (apply_set fields d) = apply_set fields d.
Proof.
  unfold apply_set.
  rewrite (assoc_L (∪)), (idemp_L (∪)). reflexivity.
Qed.

(** X5: a record that was created can be fetched.  After a create
    that was answered 201, get-by-id with an identifier that spells the
    generated id is answered 200 with the document the create stored:
    it is in the collection, carries the generated id, and is the
    document built from the request's body and stored file name. *)
Theorem create_then_get_by_id (e : env) (req req' : request) (w w' : world)
    (r : response) :
  router_post e req w = (Returned r, w') ->
  status r = 201%nat ->
  ObjectId_new (params_id req') = inr (pk e) ->
  exists d : document,
    router_get_id req' w' =
      (Returned {| status := 200; json := JDocument d |}, w')
    /\ d ∈ images w'
    /\ d !! "_id" = Some (VId (pk e))
    /\ (forall p b, carries_image req p -> body req = Some b ->
          d = created_document e b
                (storage_filename (arrival_ms e) (incoming_file p))).
Proof.
  intros Hrun Hst Hparse.
  destruct (router_post_cases e req w)
    as [(p & b & Hp & Hb & Hf & Hfresh & Hrun')
       | [(msg & _ & Hrun') | (_ & Hrun')]];
    rewrite Hrun' in Hrun; injection Hrun as <- <-; try discriminate Hst.
  set (doc := created_document e b
                (storage_filename (arrival_ms e) (incoming_file p))).
  exists doc. split.
  - eapply router_get_id_found; [exact Hparse | |].
    + simpl. rewrite after_upload_fault. exact Hf.
    + simpl. apply list_find_appended; [exact Hfresh |].
      apply created_document_has_id.
  - split; [simpl; apply elem_of_app; right; apply list_elem_of_here |].
    split; [reflexivity |].
    intros p' b' [Hnamed' _] Hb'. destruct Hp as [Hnamed _].
    rewrite Hnamed in Hnamed'. injection Hnamed' as <-.
    rewrite Hb in Hb'. injection Hb' as <-. reflexivity.
Qed.

Lemma create_then_get_by_id_witness :
  exists d : document,
    router_get_id get_cat_request cat_world =
      (Returned {| status := 200; json := JDocument d |}, cat_world)
    /\ d !! "name" = Some (VStr "Cat")
    /\ d !! "imagePath" = Some (VStr "/uploads/1700000000000-cat.jpg").
Proof.
  destruct (create_then_get_by_id cat_env cat_request get_cat_request
              empty_world cat_world
              {| status := 201;
                 json := JInsert {| ins_acknowledged := true;
                                    insertedId := VId 1%N |} |})
    as (d & Hrun & _ & _ & Hdoc).
  - vm_compute. reflexivity.
  - reflexivity.
  - reflexivity.
  - exists d. split; [exact Hrun |].
    rewrite (Hdoc cat_upload cat_body); [| split; reflexivity | reflexivity].
    split; reflexivity.
Defined.

(** X6: a record that was created is listed.  After a create that was
    answered 201 the list route answers 200 with the documents that
    were there and the new one, each once (in the store's scan order,
    whatever it is). *)
Theorem create_then_list (e : env) (req req' : request) (w w' : world)
    (r : response) :
  router_post e req w = (Returned r, w') ->
  status r = 201%nat ->
  exists (l : list document) (doc : document),
    router_get req' w' =
      (Returned {| status := 200; json := JDocuments l |}, w')
    /\ l ≡ₚ doc :: images w
    /\ doc !! "_id" = Some (VId (pk e)).
Proof.
  intros Hrun Hst.
  destruct (router_post_cases e req w)
    as [(p & b & Hp & Hb & Hf & Hfresh & Hrun')
       | [(msg & _ & Hrun') | (_ & Hrun')]];
    rewrite Hrun' in Hrun; injection Hrun as <- <-; try discriminate Hst.
  set (doc := created_document e b
                (storage_filename (arrival_ms e) (incoming_file p))).
  exists (images w ++ [doc])%list, doc. split.
  - unfold router_get, find_toArray, driver. run_io.
    rewrite after_upload_fault, Hf. reflexivity.
  - split; [| apply created_document_has_id].
    rewrite Permutation_app_comm. reflexivity.
Qed.

Lemma create_then_list_witness :
  exists l : list document,
    router_get get_cat_request cat_world =
      (Returned {| status := 200; json := JDocuments l |}, cat_world)
    /\ length l = 1%nat.
Proof.
  destruct (create_then_list cat_env cat_request get_cat_request
              empty_world cat_world
              {| status := 201;
                 json := JInsert {| ins_acknowledged := true;
                                    insertedId := VId 1%N |} |})
    as (l & doc & Hrun & Hperm & _).
  - vm_compute. reflexivity.
  - reflexivity.
  - exists l. split; [exact Hrun |].
    rewrite Hperm. reflexivity.
Defined.

(** X7: an update is visible to the next get-by-id.  After an update
    that matched a document, get-by-id with the same id is answered 200
    with a document that holds the body's value in each of the five
    text fields and the old document's value in every other field. *)
Theorem update_then_get_by_id (req req' : request) (o : ObjectId)
    (b : object) (w : world) (i : nat) (d : document) :
  ObjectId_new (params_id req) = inr o ->
  body req = Some b ->
  fault w = None ->
  list_find (has_id o) (images w) = Some (i, d) ->
  ObjectId_new (params_id req') = inr o ->
  let w' := snd (router_put req w) in
  exists d' : document,
    router_get_id req' w' =
      (Returned {| status := 200; json := JDocument d' |}, w')
    /\ (forall k, k ∈ text_keys -> d' !! k = Some (bson (get_prop b k)))
    /\ (forall k, k ∉ text_keys -> d' !! k = d !! k).
Proof.
  intros Hparse Hbody Hfault Hfind Hparse' w'. subst w'.
  rewrite (router_put_matched req o b w i d Hparse Hbody Hfault Hfind). simpl.
  exists (apply_set (put_fields b) d).
  split.
  - eapply router_get_id_found; [exact Hparse' | exact Hfault |].
    simpl. apply (list_find_rewritten o (images w) i d); [exact Hfind |].
    apply apply_set_has_id.
    apply list_find_Some in Hfind. tauto.
  - split; intros k Hk; [apply apply_set_written | apply apply_set_kept];
      exact Hk.
Qed.

Lemma update_then_get_by_id_witness :
  exists d' : document,
    router_get_id get_cat_request (snd (router_put rename_cat_request cat_world))
    = (Returned {| status := 200; json := JDocument d' |},
       snd (router_put rename_cat_request cat_world))
    /\ d' !! "name" = Some (VStr "Updated Cat")
    /\ d' !! "imagePath" = Some (VStr "/uploads/1700000000000-cat.jpg").
Proof.
  destruct (update_then_get_by_id rename_cat_request get_cat_request 1%N
              rename_body cat_world 0%nat cat_document)
    as (d' & Hrun & Hset & Hkeep).
  - reflexivity.
  - reflexivity.
  - reflexivity.
  - vm_compute. reflexivity.
  - reflexivity.
  - exists d'. split; [exact Hrun |].
    split.
    + rewrite (Hset "name") by compute_done. reflexivity.
    + rewrite (Hkeep "imagePath") by compute_done. reflexivity.
Defined.

(** X8: sending the same update again changes nothing.  After an update
    that matched a document, the same request is answered 200 with
    matched-count 1 and modified-count 0, and the state stays as the
    first update left it. *)
Theorem update_twice_changes_nothing (req : request) (o : ObjectId)
    (b : object) (w : world) (i : nat) (d : document) :
  ObjectId_new (params_id req) = inr o ->
  body req = Some b ->
  fault w = None ->
  list_find (has_id o) (images w) = Some (i, d) ->
  let w' := snd (router_put req w) in
  router_put req w' =
    (Returned
       {| status := 200;
          json := JUpdate
            {| upd_acknowledged := true;
               matchedCount := 1;
               modifiedCount := 0;
               upsertedCount := 0;
               upsertedId := None |} |},
     w').
Proof.
  intros Hparse Hbody Hfault Hfind w'. subst w'.
  rewrite (router_put_matched req o b w i d Hparse Hbody Hfault Hfind). simpl.
  assert (Hid : has_id o d) by (apply list_find_Some in Hfind; tauto).
  rewrite (router_put_matched req o b
             (with_images (<[i := apply_set (put_fields b) d]> (images w)) w)
             i (apply_set (put_fields b) d) Hparse Hbody Hfault).
  2: { simpl. apply (list_find_rewritten o (images w) i d); [exact Hfind |].
       apply apply_set_has_id. exact Hid. }
  rewrite apply_set_twice.
  rewrite decide_True by reflexivity.
  unfold with_images. simpl. rewrite list_insert_insert_eq. reflexivity.
Qed.

Lemma update_twice_changes_nothing_witness :
  fst (router_put rename_cat_request cat_world) =
    Returned
      {| status := 200;
         json := JUpdate
           {| upd_acknowledged := true;
              matchedCount := 1;
              modifiedCount := 1;
              upsertedCount := 0;
              upsertedId := None |} |}
  /\ router_put rename_cat_request
       (snd (router_put rename_cat_request cat_world)) =
     (Returned
        {| status := 200;
           json := JUpdate
             {| upd_acknowledged := true;
                matchedCount := 1;
                modifiedCount := 0;
                upsertedCount := 0;
                upsertedId := None |} |},
      snd (router_put rename_cat_request cat_world)).
Proof.
  split; [vm_compute; reflexivity |].
  apply (update_twice_changes_nothing rename_cat_request 1%N rename_body
           cat_world 0%nat cat_document eq_refl eq_refl eq_refl).
  vm_compute. reflexivity.
Defined.

(** ** What the routes keep *)

Lemma router_get_state (req : request) (w : world) :
  snd (router_get req w) = w.
Proof.
  destruct (router_get_cases req w) as [[_ Hrun] | (msg & _ & Hrun)];
    rewrite Hrun; reflexivity.
Qed.

Lemma router_get_id_state (req : request) (w : world) :
  snd (router_get_id req w) = w.
Proof.
  destruct (router_get_id_cases req w) as (r & Hrun & _).
  rewrite Hrun. reflexivity.
Qed.

Lemma router_put_ids (req : request) (w : world) :
  ids (snd (router_put req w)) = ids w.
Proof.
  destruct (router_put_state req w)
    as [Hsame | (o & b & i & d & Hfind & _ & Hstate)].
  - rewrite Hsame. reflexivity.
  - rewrite Hstate. unfold ids. simpl.
    apply list_find_Some in Hfind. destruct Hfind as (Hi & _ & _).
    rewrite list_fmap_insert.
    apply list_insert_id.
    rewrite list_lookup_fmap, Hi. simpl.
    rewrite apply_set_kept by compute_done. reflexivity.
Qed.

Lemma router_post_ids (e : env) (req : request) (w : world) :
  ids (snd (router_post e req w)) = ids w
  \/ (ids (snd (router_post e req w)) = (ids w ++ [Some (VId (pk e))])%list
      /\ Some (VId (pk e)) ∉ ids w).
Proof.
  destruct (router_post_two_cases e req w)
    as [(p & b & _ & _ & _ & Hfresh & Hrun) | (j & Hrun)];
    rewrite Hrun; unfold ids; simpl.
  - right. split.
    + rewrite fmap_app. reflexivity.
    + intros Hin. apply list_elem_of_fmap in Hin.
      destruct Hin as (d & Hd & Hin).
      rewrite Forall_forall in Hfresh.
      apply (Hfresh d Hin). unfold has_id. auto.
  - left. rewrite after_upload_images. reflexivity.
Qed.

Lemma run_ids (op : operation) (e : env) (req : request) (w : world) :
  ids (snd (run op e req w)) = ids w
  \/ (op = PostImage
      /\ ids (snd (run op e req w)) = (ids w ++ [Some (VId (pk e))])%list
      /\ Some (VId (pk e)) ∉ ids w).
Proof.
  destruct op; simpl.
  - destruct (router_post_ids e req w) as [H | [H1 H2]]; auto.
  - left. rewrite router_get_state. reflexivity.
  - left. rewrite router_get_id_state. reflexivity.
  - left. apply router_put_ids.
Qed.

(** X9: identifiers stay unique.  If no two documents of the collection
    share an _id, then none do after any request to any of the four
    routes. *)
Theorem routes_keep_ids_unique (op : operation) (e : env) (req : request)
    (w : world) :
  NoDup (ids w) -> NoDup (ids (snd (run op e req w))).
Proof.
  intros Hnd.
  destruct (run_ids op e req w) as [-> | (_ & -> & Hnew)]; [exact Hnd |].
  apply NoDup_app. split; [exact Hnd |].
  split; [| apply NoDup_singleton].
  intros x Hx Hin. apply list_elem_of_singleton in Hin. subst x.
  exact (Hnew Hx).
Qed.

Lemma routes_keep_ids_unique_witness :
  NoDup (ids (snd (run PostImage other_env other_request cat_world)))
  /\ ids (snd (run PostImage other_env other_request cat_world)) =
       [Some (VId 1%N); Some (VId 2%N)]
  /\ ids (snd (run PostImage cat_env cat_request cat_world)) =
       [Some (VId 1%N)].
Proof.
  split.
  - apply (routes_keep_ids_unique PostImage other_env other_request cat_world).
    vm_compute. apply NoDup_singleton.
  - split; vm_compute; reflexivity.
Defined.

(** X10: no route deletes a record.  After any request to any route,
    every identifier the collection had is still in it, as often as
    before; at most one identifier is added, and list, get-by-id and
    update leave the collection with the same identifiers as before. *)
Theorem routes_never_delete (op : operation) (e : env) (req : request)
    (w : world) :
  ids w ⊆+ ids (snd (run op e req w))
  /\ (length (ids (snd (run op e req w))) <= S (length (ids w)))%nat
  /\ (op ≠ PostImage -> ids (snd (run op e req w)) ≡ₚ ids w).
Proof.
  destruct (run_ids op e req w) as [Heq | (Hop & Heq & _)]; rewrite Heq.
  - split; [reflexivity |]. split; [lia | auto].
  - split; [apply submseteq_inserts_r; reflexivity |].
    split; [rewrite length_app; simpl; lia |].
    intros Hne. contradiction.
Qed.



(** ** When stored file names coincide *)








(** ** Error and edge behaviour *)

Lemma truthy_bson (v : value) : truthy (bson v) = truthy v.
Proof. destruct v; reflexivity. Qed.

Lemma js_or_defined (v : value) :
  bson (js_or v (VStr "")) = VStr "" \/ truthy (bson (js_or v (VStr ""))) = true.
Proof.
  unfold js_or. destruct (truthy v) eqn:Hv.
  - right. rewrite truthy_bson. exact Hv.
  - left. reflexivity.
Qed.

(** X13: the optional fields of a created record are never null.  In
    the document that a create answered 201 stores, color and lifeSpan
    hold the empty string or a truthy value; a field the body leaves out
    or gives as the empty string is stored as the empty string. *)
Theorem create_optional_fields_are_defined (e : env) (req : request)
    (w w' : world) (r : response) (k : string) :
  k ∈ ["color"; "lifeSpan"] ->
  router_post e req w = (Returned r, w') ->
  status r = 201%nat ->
  exists (doc : document) (c : value),
    images w' ≡ₚ doc :: images w
    /\ doc !! k = Some c
    /\ (c = VStr "" \/ truthy c = true)
    /\ (forall b, body req = Some b ->
          b !! k = None \/ b !! k = Some (VStr "") -> c = VStr "").
Proof.
  intros Hk Hrun Hst.
  destruct (router_post_two_cases e req w)
    as [(p & b & _ & Hb & _ & _ & Hrun') | (j & Hrun')];
    rewrite Hrun' in Hrun; injection Hrun as <- <-; [| discriminate Hst].
  destruct (created_document_fields e b
              (storage_filename (arrival_ms e) (incoming_file p)))
    as (_ & _ & _ & _ & Hc & Hl & _).
  assert (Hempty : forall k', b !! k' = None \/ b !! k' = Some (VStr "") ->
            bson (js_or (get_prop b k') (VStr "")) = VStr "").
  { intros k' [Hnone | Hsome].
    - rewrite (get_prop_absent b k' Hnone). reflexivity.
    - rewrite (get_prop_present b k' _ Hsome). reflexivity. }
  rewrite !elem_of_cons, elem_of_nil in Hk.
  destruct Hk as [-> | [-> | []]].
  - exists (created_document e b
              (storage_filename (arrival_ms e) (incoming_file p))),
           (bson (js_or (get_prop b "color") (VStr ""))).
    split; [simpl; rewrite Permutation_app_comm; reflexivity |].
    split; [exact Hc |].
    split; [apply js_or_defined |].
    intros b' Hb' Hk. rewrite Hb in Hb'. injection Hb' as <-.
    apply Hempty. exact Hk.
  - exists (created_document e b
              (storage_filename (arrival_ms e) (incoming_file p))),
           (bson (js_or (get_prop b "lifeSpan") (VStr ""))).
    split; [simpl; rewrite Permutation_app_comm; reflexivity |].
    split; [exact Hl |].
    split; [apply js_or_defined |].
    intros b' Hb' Hk. rewrite Hb in Hb'. injection Hb' as <-.
    apply Hempty. exact Hk.
Qed.

Lemma create_optional_fields_are_defined_witness :
  exists doc : document,
    images (snd (router_post cat_env empty_color_request empty_world)) = [doc]
    /\ empty_color_body !! "color" = Some (VStr "")
    /\ empty_color_body !! "lifeSpan" = None
    /\ doc !! "color" = Some (VStr "")
    /\ doc !! "lifeSpan" = Some (VStr "").
Proof.
  destruct (create_optional_fields_are_defined cat_env empty_color_request
              empty_world
              (snd (router_post cat_env empty_color_request empty_world))
              {| status := 201;
                 json := JInsert {| ins_acknowledged := true;
                                    insertedId := VId 1%N |} |} "color")
    as (doc & c & Himgs & Hc & _ & Hempty).
  - compute_done.
  - vm_compute. reflexivity.
  - reflexivity.
  - apply Permutation_singleton_r in Himgs.
    exists doc. split; [exact Himgs |].
    split; [reflexivity |]. split; [reflexivity |].
    split.
    + rewrite Hc. f_equal. apply (Hempty empty_color_body eq_refl).
      right. reflexivity.
    + simpl in Himgs. injection Himgs as <-. reflexivity.
Defined.

(** X14: an update that cannot be carried out is a 500 and changes
    nothing.  With an identifier that is not an ObjectId the answer is
    500 with the constructor's message, whatever the body and the
    store's condition; with a well-formed identifier and no parsed body
    it is 500 with the TypeError of reading [name] of undefined.  The
    store is not called in either case. *)
Theorem update_bad_request_is_500 (req : request) (w : world) :
  (forall msg, ObjectId_new (params_id req) = inl msg ->
     router_put req w =
       (Returned {| status := 500; json := JMessage msg |}, w))
  /\ (forall o, ObjectId_new (params_id req) = inr o -> body req = None ->
        router_put req w =
          (Returned {| status := 500;
                       json := JMessage (TypeError_undefined "name") |}, w)).
Proof.
  split.
  - intros msg Hparse. unfold router_put, new_ObjectId. rewrite Hparse.
    reflexivity.
  - intros o Hparse Hbody. unfold router_put, new_ObjectId, body_prop.
    rewrite Hparse, Hbody. reflexivity.
Qed.

Lemma update_bad_request_is_500_witness :
  router_put rename_malformed_request cat_world =
    (Returned {| status := 500; json := JMessage ObjectId_error |}, cat_world)
  /\ router_put rename_bodyless_request cat_world =
       (Returned
          {| status := 500;
             json := JMessage
               "Cannot read properties of undefined (reading 'name')" |},
        cat_world).
Proof.
  destruct (update_bad_request_is_500 rename_malformed_request cat_world)
    as [Hbad _].
  destruct (update_bad_request_is_500 rename_bodyless_request cat_world)
    as [_ Hnobody].
  split.
  - apply Hbad. reflexivity.
  - apply (Hnobody 1%N); reflexivity.
Defined.

(** X15: while the store is unreachable every request that gets as far
    as the driver call is answered 500 with the store's own error
    message, on all four routes, and the collection is not changed. *)
Theorem store_fault_is_500 (op : operation) (e : env) (req : request)
    (w : world) (msg : string) :
  fault w = Some msg ->
  reaches_store op req ->
  exists w' : world,
    run op e req w =
      (Returned {| status := 500; json := JMessage msg |}, w')
    /\ images w' = images w
    /\ fault w' = Some msg.
Proof.
  intros Hfault Hreach. destruct op; simpl in *.
  - destruct Hreach as [[p [Hnamed Hfield]] [b Hbody]].
    eexists. split.
    + unfold router_post, express_default, upload_single, handle_file,
        post_handler, body_prop, file_filename, insertOne, driver.
      rewrite Hnamed, Hfield, Hbody. run_io. rewrite Hfault. reflexivity.
    + split; [reflexivity | exact Hfault].
  - exists w. split; [| auto].
    unfold router_get, find_toArray, driver. run_io. rewrite Hfault.
    reflexivity.
  - destruct Hreach as [o Hparse].
    exists w. split; [| auto].
    unfold router_get_id, new_ObjectId, findOne, driver.
    rewrite Hparse. run_io. rewrite Hfault. reflexivity.
  - destruct Hreach as [[o Hparse] [b Hbody]].
    exists w. split; [| auto].
    unfold router_put, new_ObjectId, body_prop, updateOne, driver.
    rewrite Hparse, Hbody. run_io. rewrite Hfault. reflexivity.
Qed.

Lemma store_fault_is_500_witness :
  exists w' : world,
    run PostImage cat_env cat_request down_world =
      (Returned {| status := 500; json := JMessage "connect ECONNREFUSED" |},
       w')
    /\ images w' = [].
Proof.
  destruct (store_fault_is_500 PostImage cat_env cat_request down_world
              "connect ECONNREFUSED") as (w' & Hrun & Himgs & _).
  - reflexivity.
  - simpl. split; [exists cat_upload; split; reflexivity |].
    eexists. reflexivity.
  - exists w'. split; [exact Hrun | exact Himgs].
Defined.

(** ** A series of creates *)





(** ** Records and their files *)

(** X17: an update touches only records carrying the id it names.  With
    a well-formed id, every document that has another _id (or none) is
    at its place after the call with all its fields as they were. *)
Theorem update_touches_only_its_id (req : request) (o : ObjectId)
    (w : world) (j : nat) (d : document) :
  ObjectId_new (params_id req) = inr o ->
  images w !! j = Some d ->
  ¬ has_id o d ->
  images (snd (router_put req w)) !! j = Some d.
Proof.
  intros Hparse Hj Hother.
  destruct (body req) as [b |] eqn:Hbody.
  2: { unfold router_put, new_ObjectId, body_prop.
       rewrite Hparse, Hbody. exact Hj. }
  destruct (fault w) as [msg |] eqn:Hfault.
  { unfold router_put, new_ObjectId, body_prop, updateOne, driver.
    rewrite Hparse, Hbody. run_io. rewrite Hfault. exact Hj. }
  destruct (list_find (has_id o) (images w)) as [[i di] |] eqn:Hfind.
  - rewrite (router_put_matched req o b w i di Hparse Hbody Hfault Hfind).
    simpl. apply list_find_Some in Hfind. destruct Hfind as (Hi & Hid & _).
    rewrite list_lookup_insert_ne; [exact Hj |].
    intros ->. rewrite Hi in Hj. injection Hj as ->. exact (Hother Hid).
  - rewrite (router_put_unmatched req o b w Hparse Hbody Hfault Hfind).
    exact Hj.
Qed.

Lemma update_touches_only_its_id_witness :
  let w2 := snd (router_post other_env other_request cat_world) in
  images w2 !! 1%nat = images (snd (router_put rename_cat_request w2)) !! 1%nat
  /\ images w2 !! 0%nat <> images (snd (router_put rename_cat_request w2)) !! 0%nat.
Proof.
  intros w2. split.
  - symmetry.
    destruct (images w2 !! 1%nat) as [d |] eqn:Hd; [| vm_compute in Hd; discriminate Hd].
    apply (update_touches_only_its_id rename_cat_request 1%N w2 1%nat d).
    + reflexivity.
    + exact Hd.
    + vm_compute in Hd. injection Hd as <-. unfold has_id. vm_compute.
      discriminate.
  - vm_compute. discriminate.
Defined.

Lemma router_put_frame (req : request) (w : world) (j : nat) (d' : document) :
  images (snd (router_put req w)) !! j = Some d' ->
  uploads (snd (router_put req w)) = uploads w
  /\ exists d : document,
       images w !! j = Some d
       /\ forall k, k ∉ text_keys -> d' !! k = d !! k.
Proof.
  destruct (router_put_state req w)
    as [Hsame | (o & b & i & di & Hfind & _ & Hstate)].
  - rewrite Hsame. intros Hj. split; [reflexivity |]. exists d'. auto.
  - rewrite Hstate. simpl. intros Hj. split; [reflexivity |].
    apply list_find_Some in Hfind. destruct Hfind as (Hi & _ & _).
    destruct (decide (i = j)) as [-> | Hne].
    + rewrite list_lookup_insert_eq in Hj by (apply (lookup_lt_Some _ _ _ Hi)).
      injection Hj as <-. exists di. split; [exact Hi |].
      intros k Hk. apply apply_set_kept. exact Hk.
    + rewrite list_lookup_insert_ne in Hj by exact Hne.
      exists d'. auto.
Qed.

Lemma upload_single_keeps_files (e : env) (req : request) (w : world)
    (n : string) :
  ¬ multer_unlinks req ->
  is_Some (uploads w !! n) ->
  is_Some (uploads (after_upload e req w) !! n).
Proof.
  intros Hkeep Hn. unfold after_upload, upload_single.
  destruct (named_files (files req)) as [| p rest] eqn:Hnamed; [exact Hn |].
  destruct (String.eqb (field_name p) "image") eqn:Hfield; [| exact Hn].
  apply String.eqb_eq in Hfield.
  destruct rest as [| q rest]; simpl.
  - destruct (decide (storage_filename (arrival_ms e) (incoming_file p) = n))
      as [-> | Hne].
    + rewrite lookup_insert_eq. eauto.
    + rewrite lookup_insert_ne by exact Hne. exact Hn.
  - exfalso. apply Hkeep. exists p, q, rest. auto.
Qed.

(** X18: every record's image stays servable.  If each document's
    imagePath is "/uploads/" followed by the name of a file present in
    the uploads directory, this is still so after any request to any of
    the four routes, provided Multer does not remove a file for the
    request (which it does when a create request carries a second file
    part after its image): a create stores the file its new document
    names, and an update changes neither an imagePath nor a file. *)
Theorem routes_keep_paths_resolving (op : operation) (e : env)
    (req : request) (w : world) :
  paths_resolve w ->
  (op = PostImage -> ¬ multer_unlinks req) ->
  paths_resolve (snd (run op e req w)).
Proof.
  intros Hinv Hkeep. destruct op; simpl.
  - specialize (Hkeep eq_refl).
    destruct (router_post_two_cases e req w)
      as [(p & b & Himage & _ & _ & _ & Hrun) | (j & Hrun)];
      rewrite Hrun; intros d Hd; unfold with_images in *;
      cbn [snd images uploads] in *.
    + apply elem_of_app in Hd. destruct Hd as [Hd | Hd].
      * destruct (Hinv d Hd) as (n & Hpath & Hfile).
        exists n. split; [exact Hpath |].
        apply upload_single_keeps_files; assumption.
      * apply list_elem_of_singleton in Hd. subst d.
        exists (storage_filename (arrival_ms e) (incoming_file p)).
        split; [reflexivity |].
        rewrite (after_upload_file e req p w Himage), lookup_insert_eq.
        eauto.
    + rewrite after_upload_images in Hd.
      destruct (Hinv d Hd) as (n & Hpath & Hfile).
      exists n. split; [exact Hpath |].
      apply upload_single_keeps_files; assumption.
  - rewrite router_get_state. exact Hinv.
  - rewrite router_get_id_state. exact Hinv.
  - intros d' Hd'. apply list_elem_of_lookup in Hd'. destruct Hd' as [j Hj].
    destruct (router_put_frame req w j d' Hj) as (Hup & d & Hd & Hkeep').
    destruct (Hinv d) as (n & Hpath & Hfile).
    { apply list_elem_of_lookup. eauto. }
    exists n. rewrite Hup, (Hkeep' "imagePath") by compute_done. auto.
Qed.

Lemma not_multer_unlinks_one (req : request) (p : multipart_file) :
  named_files (files req) = [p] -> ¬ multer_unlinks req.
Proof.
  intros Hnamed (p' & q & rest & Hnamed' & _).
  rewrite Hnamed in Hnamed'. discriminate Hnamed'.
Qed.

Lemma routes_keep_paths_resolving_witness :
  paths_resolve cat_world
  /\ paths_resolve (snd (run PutImage cat_env rename_cat_request cat_world)).
Proof.
  assert (Hcat : paths_resolve cat_world).
  { apply (routes_keep_paths_resolving PostImage cat_env cat_request
             empty_world).
    - intros d Hd. simpl in Hd. apply elem_of_nil in Hd. contradiction.
    - intros _. apply (not_multer_unlinks_one cat_request cat_upload).
      reflexivity. }
  split; [exact Hcat |].
  apply (routes_keep_paths_resolving PutImage cat_env rename_cat_request
           cat_world).
  - exact Hcat.
  - intros Hop. discriminate Hop.
Defined.


